(** * src/port/thread.c: pqGetpwuid and pqGethostbyname

    Shallow embedding of the two reentrancy wrappers of src/port/thread.c.

    - C objects reached through pointer arguments ( *resultbuf, the scratch
      buffer, *result, *herrno ) are fields of an explicit caller state;
    - the ambient C globals errno and h_errno, together with whatever
      static storage the platform library owns, form the [sys] state;
    - the platform primitives (getpwuid_r, getpwuid, gethostbyname_r,
      gethostbyname) are Section variables: they are not code of this
      repository.  Each primitive receives exactly the objects its C
      arguments give it access to; the legacy forms get no caller buffer
      and hand back a pointer into the library's static storage;
    - the compile-time selection (FRONTEND, ENABLE_THREAD_SAFETY,
      HAVE_GETPWUID_R, HAVE_GETHOSTBYNAME_R) is a configuration record;
    - each state also carries a ghost log of the primitive calls the
      wrapper issued, so that "called once, no retry" can be stated. *)

From Stdlib Require Import ZArith String List Bool Lia.
Import ListNotations.
Open Scope Z_scope.

Definition uid_t := Z.
Definition size_t := nat.

(** errno / h_errno values used in the examples *)
Definition EIO : Z := 5.
Definition ERANGE : Z := 34.
Definition HOST_NOT_FOUND : Z := 1.

(** struct passwd *)
Record passwd := mkPasswd {
  pw_name : string;
  pw_uid : uid_t;
  pw_gid : Z;
  pw_dir : string;
  pw_shell : string
}.

(** struct hostent *)
Record hostent := mkHostent {
  h_name : string;
  h_aliases : list string;
  h_addrtype : Z;
  h_length : Z;
  h_addr_list : list (list Byte.byte)
}.

(** Pointer values a struct passwd * / struct hostent * can hold here:
    NULL, a slot of the platform library's static storage, or the
    caller's result buffer *resultbuf. *)
Inductive ptr :=
| NULL
| StaticArea (n : nat)
| ResultBuf.

Definition ptr_eqb (p q : ptr) : bool :=
  match p, q with
  | NULL, NULL => true
  | StaticArea n, StaticArea m => Nat.eqb n m
  | ResultBuf, ResultBuf => true
  | _, _ => false
  end.

(** A pointer handed back by a legacy (static storage) primitive. *)
Definition ptr_of_static (p : option nat) : ptr :=
  match p with
  | Some n => StaticArea n
  | None => NULL
  end.

(** Primitive calls, for the ghost call log. *)
Inductive call :=
| Call_getpwuid_r (uid : uid_t) (buflen : size_t)
| Call_getpwuid (uid : uid_t)
| Call_gethostbyname_r (name : string) (buflen : size_t)
| Call_gethostbyname (name : string).

(** Build configuration (the preprocessor symbols thread.c tests). *)
Record config := mkConfig {
  FRONTEND : bool;
  ENABLE_THREAD_SAFETY : bool;
  HAVE_GETPWUID_R : bool;
  HAVE_GETHOSTBYNAME_R : bool
}.

(** #if defined(FRONTEND) && defined(ENABLE_THREAD_SAFETY) && defined(HAVE_GETPWUID_R) *)
Definition reentrant_pw (cfg : config) : bool :=
  FRONTEND cfg && ENABLE_THREAD_SAFETY cfg && HAVE_GETPWUID_R cfg.

(** #if defined(FRONTEND) && defined(ENABLE_THREAD_SAFETY) && defined(HAVE_GETHOSTBYNAME_R) *)
Definition reentrant_host (cfg : config) : bool :=
  FRONTEND cfg && ENABLE_THREAD_SAFETY cfg && HAVE_GETHOSTBYNAME_R cfg.

Section Thread.

(** Library-owned state other than errno and h_errno (static storage,
    the account and host databases, ...). *)
Variable Plat : Type.

(** The ambient state of the C library. *)
Record sys := mkSys {
  errno : Z;
  h_errno : Z;
  plat : Plat
}.

Definition set_errno (e : Z) (sy : sys) : sys :=
  mkSys e (h_errno sy) (plat sy).

(** Caller objects of a pqGetpwuid call. *)
Record pw_state := mkPw {
  pw_sys : sys;
  pw_resultbuf : passwd;          (* *resultbuf *)
  pw_buffer : list Byte.byte;     (* buffer[] *)
  pw_result : ptr;                (* *result *)
  pw_calls : list call            (* ghost: primitive calls issued *)
}.

(** Caller objects of a pqGethostbyname call. *)
Record host_state := mkHost {
  hs_sys : sys;
  hs_resultbuf : hostent;         (* *resultbuf *)
  hs_buffer : list Byte.byte;     (* buffer[] *)
  hs_result : ptr;                (* *result *)
  hs_herrno : Z;                  (* *herrno *)
  hs_calls : list call            (* ghost: primitive calls issued *)
}.

(** int getpwuid_r(uid_t, struct passwd *resultbuf, char *buffer,
                   size_t buflen, struct passwd **result):
    reads and writes *resultbuf, buffer[], *result and the library state;
    returns the new contents and the int result. *)
Variable getpwuid_r :
  uid_t -> passwd -> list Byte.byte -> size_t -> ptr -> sys ->
  sys * passwd * list Byte.byte * ptr * Z.

(** struct passwd *getpwuid(uid_t): only the library state is reachable;
    the result is NULL or points into static storage. *)
Variable getpwuid : uid_t -> sys -> sys * option nat.

(** Early-POSIX-draft form:
    struct hostent *gethostbyname_r(const char *name, struct hostent *resultbuf,
                                    char *buffer, size_t buflen, int *herrno) *)
Variable gethostbyname_r :
  string -> hostent -> list Byte.byte -> size_t -> Z -> sys ->
  sys * hostent * list Byte.byte * Z * ptr.

(** struct hostent *gethostbyname(const char *name) *)
Variable gethostbyname : string -> sys -> sys * option nat.

Variable cfg : config.

(** pqGetpwuid (thread.c lines 64-77, compiled when !WIN32). *)
Definition pqGetpwuid (uid : uid_t) (buflen : size_t) (s : pw_state)
  : pw_state * Z :=
  if reentrant_pw cfg then
    (* return getpwuid_r(uid, resultbuf, buffer, buflen, result); *)
    let '(sy, rb, buf, r, ret) :=
      getpwuid_r uid (pw_resultbuf s) (pw_buffer s) buflen (pw_result s) (pw_sys s) in
    (mkPw sy rb buf r (pw_calls s ++ [Call_getpwuid_r uid buflen]), ret)
  else
    (* errno = 0; *)
    let sy0 := set_errno 0 (pw_sys s) in
    (* *result = getpwuid(uid); *)
    let '(sy1, p) := getpwuid uid sy0 in
    let s1 := mkPw sy1 (pw_resultbuf s) (pw_buffer s) (ptr_of_static p)
                   (pw_calls s ++ [Call_getpwuid uid]) in
    (* return ( *result == NULL) ? errno : 0; *)
    (s1, if ptr_eqb (pw_result s1) NULL then errno (pw_sys s1) else 0).

(** pqGethostbyname (thread.c lines 86-114, compiled when !HAVE_GETADDRINFO). *)
Definition pqGethostbyname (name : string) (buflen : size_t) (s : host_state)
  : host_state * Z :=
  if reentrant_host cfg then
    (* *result = gethostbyname_r(name, resultbuf, buffer, buflen, herrno); *)
    let '(sy, rb, buf, he, p) :=
      gethostbyname_r name (hs_resultbuf s) (hs_buffer s) buflen (hs_herrno s) (hs_sys s) in
    let s1 := mkHost sy rb buf p he (hs_calls s ++ [Call_gethostbyname_r name buflen]) in
    (* return ( *result == NULL) ? -1 : 0; *)
    (s1, if ptr_eqb (hs_result s1) NULL then -1 else 0)
  else
    (* *result = gethostbyname(name); *)
    let '(sy, p) := gethostbyname name (hs_sys s) in
    let s1 := mkHost sy (hs_resultbuf s) (hs_buffer s) (ptr_of_static p) (hs_herrno s)
                     (hs_calls s ++ [Call_gethostbyname name]) in
    (* if ( *result != NULL) *herrno = h_errno; *)
    let s2 := if negb (ptr_eqb (hs_result s1) NULL)
              then mkHost (hs_sys s1) (hs_resultbuf s1) (hs_buffer s1) (hs_result s1)
                          (h_errno (hs_sys s1)) (hs_calls s1)
              else s1 in
    (* if ( *result != NULL) return 0; else return -1; *)
    (s2, if negb (ptr_eqb (hs_result s2) NULL) then 0 else -1).

End Thread.

Arguments mkSys {Plat}.
Arguments errno {Plat}.
Arguments h_errno {Plat}.
Arguments plat {Plat}.
Arguments set_errno {Plat}.
Arguments mkPw {Plat}.
Arguments pw_sys {Plat}.
Arguments pw_resultbuf {Plat}.
Arguments pw_buffer {Plat}.
Arguments pw_result {Plat}.
Arguments pw_calls {Plat}.
Arguments mkHost {Plat}.
Arguments hs_sys {Plat}.
Arguments hs_resultbuf {Plat}.
Arguments hs_buffer {Plat}.
Arguments hs_result {Plat}.
Arguments hs_herrno {Plat}.
Arguments hs_calls {Plat}.
Arguments pqGetpwuid {Plat}.
Arguments pqGethostbyname {Plat}.

(** ** POSIX behaviour of the platform primitives

    The outcome a lookup has on the platform: the entry exists, it does
    not, or the lookup fails with an errno code. *)
Inductive lookup_outcome :=
| Found
| NotFound
| LookupError (e : Z).

(** POSIX getpwuid_r: returns 0 and sets *result non-NULL when found;
    returns 0 and sets *result to NULL when not found; returns the error
    number and sets *result to NULL on error.  [db] is the outcome the
    platform decides from the uid, the buffer length and its own state. *)
Definition posix_getpwuid_r {Plat : Type}
  (getpwuid_r : uid_t -> passwd -> list Byte.byte -> size_t -> ptr -> sys Plat ->
                sys Plat * passwd * list Byte.byte * ptr * Z)
  (db : uid_t -> size_t -> Plat -> lookup_outcome) : Prop :=
  forall uid rb buf buflen r sy,
    let '(_, _, _, r', ret) := getpwuid_r uid rb buf buflen r sy in
    match db uid buflen (plat sy) with
    | Found => ret = 0 /\ r' <> NULL
    | NotFound => ret = 0 /\ r' = NULL
    | LookupError e => e <> 0 /\ ret = e /\ r' = NULL
    end.

(** POSIX getpwuid: a non-NULL pointer when found (errno unspecified);
    NULL with errno unchanged when not found; NULL with errno set on error. *)
Definition posix_getpwuid {Plat : Type}
  (getpwuid : uid_t -> sys Plat -> sys Plat * option nat)
  (db : uid_t -> Plat -> lookup_outcome) : Prop :=
  forall uid sy,
    let '(sy', p) := getpwuid uid sy in
    match db uid (plat sy) with
    | Found => p <> None
    | NotFound => p = None /\ errno sy' = errno sy
    | LookupError e => e <> 0 /\ p = None /\ errno sy' = e
    end.

(** The outcome of the platform lookup pqGetpwuid performs in the strategy
    selected by [cfg]. *)
Definition pw_outcome {Plat : Type} (cfg : config)
  (db_r : uid_t -> size_t -> Plat -> lookup_outcome)
  (db_l : uid_t -> Plat -> lookup_outcome)
  (uid : uid_t) (buflen : size_t) (s : pw_state Plat) : lookup_outcome :=
  if reentrant_pw cfg then db_r uid buflen (plat (pw_sys s))
  else db_l uid (plat (pw_sys s)).

(** POSIX getpwuid_r sets *result on every path: the pointer it leaves
    there does not depend on what *result held before. *)
Definition getpwuid_r_sets_result {Plat : Type}
  (getpwuid_r : uid_t -> passwd -> list Byte.byte -> size_t -> ptr -> sys Plat ->
                sys Plat * passwd * list Byte.byte * ptr * Z) : Prop :=
  forall uid rb buf buflen r1 r2 sy,
    let '(_, _, _, r1', _) := getpwuid_r uid rb buf buflen r1 sy in
    let '(_, _, _, r2', _) := getpwuid_r uid rb buf buflen r2 sy in
    r1' = r2'.

(** ** A concrete platform, used to instantiate the theorems *)

Module Toy.

Definition root_pw : passwd := mkPasswd "root" 0 0 "/root" "/bin/sh".
Definition postgres_pw : passwd :=
  mkPasswd "postgres" 5432 5432 "/var/lib/postgresql" "/bin/bash".

(** The account database: uid 99 is on a failing NIS server. *)
Definition pw_db (uid : uid_t) : lookup_outcome :=
  if Z.eqb uid 0 then Found
  else if Z.eqb uid 5432 then Found
  else if Z.eqb uid 99 then LookupError EIO
  else NotFound.

Definition pw_entry (uid : uid_t) : passwd :=
  if Z.eqb uid 0 then root_pw else postgres_pw.

(** Bytes of scratch space getpwuid_r needs for an entry's strings. *)
Definition pw_need (pw : passwd) : nat :=
  String.length (pw_name pw) + String.length (pw_dir pw)
  + String.length (pw_shell pw) + 3.

Definition pw_db_r (uid : uid_t) (buflen : size_t) (_ : unit) : lookup_outcome :=
  match pw_db uid with
  | Found => if Nat.ltb buflen (pw_need (pw_entry uid)) then LookupError ERANGE
             else Found
  | o => o
  end.

Definition pw_db_l (uid : uid_t) (_ : unit) : lookup_outcome := pw_db uid.

Definition getpwuid_r (uid : uid_t) (rb : passwd) (buf : list Byte.byte)
  (buflen : size_t) (r : ptr) (sy : sys unit)
  : sys unit * passwd * list Byte.byte * ptr * Z :=
  match pw_db_r uid buflen tt with
  | Found => (sy, pw_entry uid, buf, ResultBuf, 0)
  | NotFound => (sy, rb, buf, NULL, 0)
  | LookupError e => (sy, rb, buf, NULL, e)
  end.

(** Legacy getpwuid: root and postgres live in static slots 0 and 1. *)
Definition getpwuid (uid : uid_t) (sy : sys unit) : sys unit * option nat :=
  match pw_db_l uid tt with
  | Found => (sy, Some (if Z.eqb uid 0 then 0%nat else 1%nat))
  | NotFound => (sy, None)
  | LookupError e => (set_errno e sy, None)
  end.

Definition localhost_ent : hostent :=
  mkHostent "localhost" [] 2 4 [[Byte.x7f; Byte.x00; Byte.x00; Byte.x01]].

Definition gethostbyname_r (name : string) (rb : hostent) (buf : list Byte.byte)
  (buflen : size_t) (he : Z) (sy : sys unit)
  : sys unit * hostent * list Byte.byte * Z * ptr :=
  if String.eqb name "localhost" then (sy, localhost_ent, buf, he, ResultBuf)
  else (sy, rb, buf, HOST_NOT_FOUND, NULL).

(** Legacy gethostbyname: sets h_errno only when it fails. *)
Definition gethostbyname (name : string) (sy : sys unit) : sys unit * option nat :=
  if String.eqb name "localhost" then (sy, Some 0%nat)
  else (mkSys (errno sy) HOST_NOT_FOUND (plat sy), None).

Definition cfg_threaded : config := mkConfig true true true true.
Definition cfg_legacy : config := mkConfig false false false false.

Definition sys0 : sys unit := mkSys 0 0 tt.
Definition empty_pw : passwd := mkPasswd "" 0 0 "" "".
Definition empty_ent : hostent := mkHostent "" [] 0 0 [].

Definition pw0 (buf : list Byte.byte) : pw_state unit := mkPw sys0 empty_pw buf NULL [].
Definition host0 (he : Z) : host_state unit := mkHost sys0 empty_ent [] NULL he [].

Definition buf64 : list Byte.byte := repeat Byte.x00 64.

End Toy.

(** ** Lemmas shared by the claims *)

Lemma ptr_eqb_NULL (p : ptr) : ptr_eqb p NULL = true <-> p = NULL.
Proof. destruct p; simpl; split; congruence. Qed.

Lemma ptr_of_static_NULL (p : option nat) : ptr_of_static p = NULL <-> p = None.
Proof. destruct p; simpl; split; congruence. Qed.

Lemma set_errno_plat {Plat : Type} (e : Z) (sy : sys Plat) :
  plat (set_errno e sy) = plat sy.
Proof. reflexivity. Qed.

(** ** C1 *)

(** C1: pqGetpwuid obeys the three-way outcome contract of POSIX
    getpwuid_r in both strategies, when the platform primitives behave as
    POSIX describes: found -> returns 0 with *result non-NULL; not found ->
    returns 0 with *result NULL; lookup error -> returns a non-zero code
    with *result NULL.  In particular a non-zero status never comes with a
    non-NULL *result. *)
Theorem pqGetpwuid_three_way {Plat : Type} getpwuid_r getpwuid cfg
  (db_r : uid_t -> size_t -> Plat -> lookup_outcome)
  (db_l : uid_t -> Plat -> lookup_outcome)
  (uid : uid_t) (buflen : size_t) (s : pw_state Plat) :
  posix_getpwuid_r getpwuid_r db_r ->
  posix_getpwuid getpwuid db_l ->
  let '(s', ret) := pqGetpwuid getpwuid_r getpwuid cfg uid buflen s in
  match pw_outcome cfg db_r db_l uid buflen s with
  | Found => ret = 0 /\ pw_result s' <> NULL
  | NotFound => ret = 0 /\ pw_result s' = NULL
  | LookupError _ => ret <> 0 /\ pw_result s' = NULL
  end /\ (ret <> 0 -> pw_result s' = NULL).
Proof.
  intros Hr Hl. unfold pqGetpwuid, pw_outcome.
  destruct (reentrant_pw cfg).
  - specialize (Hr uid (pw_resultbuf s) (pw_buffer s) buflen (pw_result s) (pw_sys s)).
    destruct (getpwuid_r _ _ _ _ _ _) as [[[[sy rb] buf] r] ret]; simpl.
    destruct (db_r uid buflen (plat (pw_sys s))) as [| | e];
      [destruct Hr as [-> Hr] | destruct Hr as [-> Hr] | destruct Hr as (He & -> & Hr)];
      split; auto; congruence.
  - specialize (Hl uid (set_errno 0 (pw_sys s))). rewrite set_errno_plat in Hl.
    destruct (getpwuid uid _) as [sy1 p]; simpl.
    destruct (db_l uid (plat (pw_sys s))) as [| | e].
    + destruct p as [n |]; [| congruence]. simpl. split; [split|]; congruence.
    + destruct Hl as [-> He]. simpl. rewrite He. simpl. split; auto.
    + destruct Hl as (He & -> & Herr). simpl. rewrite Herr. split; auto.
Qed.

(** The concrete platform follows POSIX. *)
Lemma toy_pw_db_error (uid : uid_t) (e : Z) :
  Toy.pw_db uid = LookupError e -> e <> 0.
Proof.
  unfold Toy.pw_db.
  destruct (Z.eqb uid 0); [discriminate|].
  destruct (Z.eqb uid 5432); [discriminate|].
  destruct (Z.eqb uid 99); [|discriminate].
  intros H; injection H as <-. unfold EIO. lia.
Qed.

Lemma toy_posix_getpwuid_r : posix_getpwuid_r Toy.getpwuid_r Toy.pw_db_r.
Proof.
  intros uid rb buf buflen r sy. destruct (plat sy).
  unfold Toy.getpwuid_r.
  destruct (Toy.pw_db_r uid buflen tt) as [| | e] eqn:E.
  - split; [reflexivity | discriminate].
  - split; reflexivity.
  - split; [| split; reflexivity].
    revert E. unfold Toy.pw_db_r.
    destruct (Toy.pw_db uid) as [| | e'] eqn:D.
    + destruct (Nat.ltb _ _); [|discriminate].
      intros H; injection H as <-. unfold ERANGE. lia.
    + discriminate.
    + intros H; injection H as <-. exact (toy_pw_db_error uid e' D).
Qed.

Lemma toy_posix_getpwuid : posix_getpwuid Toy.getpwuid Toy.pw_db_l.
Proof.
  intros uid sy. destruct (plat sy).
  unfold Toy.getpwuid.
  destruct (Toy.pw_db_l uid tt) as [| | e] eqn:E.
  - discriminate.
  - split; reflexivity.
  - split; [| split; reflexivity].
    exact (toy_pw_db_error uid e E).
Qed.

Lemma pqGetpwuid_three_way_witness :
  posix_getpwuid_r Toy.getpwuid_r Toy.pw_db_r /\
  posix_getpwuid Toy.getpwuid Toy.pw_db_l /\
  (let '(s', ret) :=
     pqGetpwuid Toy.getpwuid_r Toy.getpwuid Toy.cfg_legacy 99 0%nat (Toy.pw0 []) in
   match pw_outcome Toy.cfg_legacy Toy.pw_db_r Toy.pw_db_l 99 0%nat (Toy.pw0 []) with
   | Found => ret = 0 /\ pw_result s' <> NULL
   | NotFound => ret = 0 /\ pw_result s' = NULL
   | LookupError _ => ret <> 0 /\ pw_result s' = NULL
   end /\ (ret <> 0 -> pw_result s' = NULL)).
Proof.
  split; [exact toy_posix_getpwuid_r|].
  split; [exact toy_posix_getpwuid|].
  exact (pqGetpwuid_three_way Toy.getpwuid_r Toy.getpwuid Toy.cfg_legacy
           Toy.pw_db_r Toy.pw_db_l 99 0%nat (Toy.pw0 [])
           toy_posix_getpwuid_r toy_posix_getpwuid).
Defined.

(** ** What each compiled strategy computes *)

Section Unfold.

Context {Plat : Type}.
Variable getpwuid_r :
  uid_t -> passwd -> list Byte.byte -> size_t -> ptr -> sys Plat ->
  sys Plat * passwd * list Byte.byte * ptr * Z.
Variable getpwuid : uid_t -> sys Plat -> sys Plat * option nat.
Variable gethostbyname_r :
  string -> hostent -> list Byte.byte -> size_t -> Z -> sys Plat ->
  sys Plat * hostent * list Byte.byte * Z * ptr.
Variable gethostbyname : string -> sys Plat -> sys Plat * option nat.
Variable cfg : config.

Lemma pqGetpwuid_reentrant_unfold uid buflen (s : pw_state Plat) :
  reentrant_pw cfg = true ->
  pqGetpwuid getpwuid_r getpwuid cfg uid buflen s =
  let '(sy, rb, buf, r, ret) :=
    getpwuid_r uid (pw_resultbuf s) (pw_buffer s) buflen (pw_result s) (pw_sys s) in
  (mkPw sy rb buf r (pw_calls s ++ [Call_getpwuid_r uid buflen]), ret).
Proof. intros H. unfold pqGetpwuid. rewrite H. reflexivity. Qed.

Lemma pqGetpwuid_legacy_unfold uid buflen (s : pw_state Plat) :
  reentrant_pw cfg = false ->
  pqGetpwuid getpwuid_r getpwuid cfg uid buflen s =
  let '(sy1, p) := getpwuid uid (set_errno 0 (pw_sys s)) in
  (mkPw sy1 (pw_resultbuf s) (pw_buffer s) (ptr_of_static p)
        (pw_calls s ++ [Call_getpwuid uid]),
   match p with None => errno sy1 | Some _ => 0 end).
Proof.
  intros H. unfold pqGetpwuid. rewrite H.
  destruct (getpwuid uid _) as [sy1 [n|]]; reflexivity.
Qed.

Lemma pqGethostbyname_reentrant_unfold name buflen (s : host_state Plat) :
  reentrant_host cfg = true ->
  pqGethostbyname gethostbyname_r gethostbyname cfg name buflen s =
  let '(sy, rb, buf, he, p) :=
    gethostbyname_r name (hs_resultbuf s) (hs_buffer s) buflen (hs_herrno s) (hs_sys s) in
  (mkHost sy rb buf p he (hs_calls s ++ [Call_gethostbyname_r name buflen]),
   if ptr_eqb p NULL then -1 else 0).
Proof. intros H. unfold pqGethostbyname. rewrite H. reflexivity. Qed.

Lemma pqGethostbyname_legacy_unfold name buflen (s : host_state Plat) :
  reentrant_host cfg = false ->
  pqGethostbyname gethostbyname_r gethostbyname cfg name buflen s =
  let '(sy, p) := gethostbyname name (hs_sys s) in
  let calls := hs_calls s ++ [Call_gethostbyname name] in
  match p with
  | Some n => (mkHost sy (hs_resultbuf s) (hs_buffer s) (StaticArea n) (h_errno sy) calls, 0)
  | None => (mkHost sy (hs_resultbuf s) (hs_buffer s) NULL (hs_herrno s) calls, -1)
  end.
Proof.
  intros H. unfold pqGethostbyname. rewrite H.
  destruct (gethostbyname name _) as [sy [n|]]; reflexivity.
Qed.

End Unfold.

(** ** C2 *)

(** C2: legacy pqGetpwuid clears errno, calls getpwuid with errno = 0 and
    reads errno right after it: with a NULL result the return code is the
    errno value getpwuid left, which is 0 when getpwuid did not set it;
    with a non-NULL result the return code is 0 whatever errno holds. *)
Theorem pqGetpwuid_legacy_errno {Plat : Type} getpwuid_r getpwuid cfg
  (uid : uid_t) (buflen : size_t) (s : pw_state Plat) :
  reentrant_pw cfg = false ->
  let sy0 := set_errno 0 (pw_sys s) in
  let '(sy1, p) := getpwuid uid sy0 in
  let '(s', ret) := pqGetpwuid getpwuid_r getpwuid cfg uid buflen s in
  errno sy0 = 0 /\
  pw_calls s' = pw_calls s ++ [Call_getpwuid uid] /\
  pw_sys s' = sy1 /\ pw_result s' = ptr_of_static p /\
  (p = None -> ret = errno sy1) /\
  (p = None -> errno sy1 = errno sy0 -> ret = 0) /\
  (p <> None -> ret = 0).
Proof.
  intros H. cbv zeta. rewrite (pqGetpwuid_legacy_unfold _ _ _ _ _ _ H).
  destruct (getpwuid uid _) as [sy1 p]. simpl.
  repeat split; destruct p; congruence.
Qed.

(** ** C3 *)

(** C3: legacy pqGethostbyname copies h_errno into *herrno exactly when
    gethostbyname returned non-NULL, and then returns 0; when it returned
    NULL, *herrno keeps its previous contents and -1 is returned. *)
Theorem pqGethostbyname_legacy_herrno {Plat : Type} gethostbyname_r gethostbyname cfg
  (name : string) (buflen : size_t) (s : host_state Plat) :
  reentrant_host cfg = false ->
  let '(sy, p) := gethostbyname name (hs_sys s) in
  let '(s', ret) := pqGethostbyname gethostbyname_r gethostbyname cfg name buflen s in
  hs_result s' = ptr_of_static p /\
  (p <> None -> hs_herrno s' = h_errno sy /\ ret = 0) /\
  (p = None -> hs_herrno s' = hs_herrno s /\ ret = -1).
Proof.
  intros H. rewrite (pqGethostbyname_legacy_unfold _ _ _ _ _ _ H).
  destruct (gethostbyname name _) as [sy [n|]]; simpl;
    repeat split; congruence.
Qed.

(** ** C4 *)

(** C4: reentrant pqGethostbyname stores the pointer gethostbyname_r
    returned into *result and returns 0 when it is non-NULL and a non-zero
    value (-1) when it is NULL. *)
Theorem pqGethostbyname_reentrant_normalize {Plat : Type} gethostbyname_r gethostbyname cfg
  (name : string) (buflen : size_t) (s : host_state Plat) :
  reentrant_host cfg = true ->
  let '(_, _, _, _, p) :=
    gethostbyname_r name (hs_resultbuf s) (hs_buffer s) buflen (hs_herrno s) (hs_sys s) in
  let '(s', ret) := pqGethostbyname gethostbyname_r gethostbyname cfg name buflen s in
  hs_result s' = p /\
  (hs_result s' <> NULL -> ret = 0) /\
  (hs_result s' = NULL -> ret <> 0).
Proof.
  intros H. rewrite (pqGethostbyname_reentrant_unfold _ _ _ _ _ _ H).
  destruct (gethostbyname_r _ _ _ _ _ _) as [[[[sy rb] buf] he] p]. simpl.
  destruct p; simpl; repeat split; congruence.
Qed.

(** ** C6 *)

(** C6: reentrant pqGetpwuid is getpwuid_r on the same five arguments:
    the same return value and the same contents of *resultbuf, buffer[],
    *result and the library state, with buflen passed unchanged; the only
    call issued is that getpwuid_r call. *)
Theorem pqGetpwuid_reentrant_delegates {Plat : Type} getpwuid_r getpwuid cfg
  (uid : uid_t) (buflen : size_t) (s : pw_state Plat) :
  reentrant_pw cfg = true ->
  let '(sy, rb, buf, r, ret) :=
    getpwuid_r uid (pw_resultbuf s) (pw_buffer s) buflen (pw_result s) (pw_sys s) in
  pqGetpwuid getpwuid_r getpwuid cfg uid buflen s =
  (mkPw sy rb buf r (pw_calls s ++ [Call_getpwuid_r uid buflen]), ret).
Proof.
  intros H. rewrite (pqGetpwuid_reentrant_unfold _ _ _ _ _ _ H).
  destruct (getpwuid_r _ _ _ _ _ _) as [[[[sy rb] buf] r] ret]. reflexivity.
Qed.

(** Witnesses on the concrete platform. *)

Lemma pqGetpwuid_legacy_errno_witness :
  reentrant_pw Toy.cfg_legacy = false /\
  (let s := Toy.pw0 [] in
   let sy0 := set_errno 0 (pw_sys s) in
   let '(sy1, p) := Toy.getpwuid 99 sy0 in
   let '(s', ret) := pqGetpwuid Toy.getpwuid_r Toy.getpwuid Toy.cfg_legacy 99 0%nat s in
   errno sy0 = 0 /\
   pw_calls s' = pw_calls s ++ [Call_getpwuid 99] /\
   pw_sys s' = sy1 /\ pw_result s' = ptr_of_static p /\
   (p = None -> ret = errno sy1) /\
   (p = None -> errno sy1 = errno sy0 -> ret = 0) /\
   (p <> None -> ret = 0)).
Proof.
  split; [reflexivity|].
  apply (pqGetpwuid_legacy_errno Toy.getpwuid_r Toy.getpwuid Toy.cfg_legacy 99 0%nat (Toy.pw0 [])).
  reflexivity.
Defined.

Lemma pqGethostbyname_legacy_herrno_witness :
  reentrant_host Toy.cfg_legacy = false /\
  (let s := Toy.host0 7 in
   let '(sy, p) := Toy.gethostbyname "localhost" (hs_sys s) in
   let '(s', ret) :=
     pqGethostbyname Toy.gethostbyname_r Toy.gethostbyname Toy.cfg_legacy "localhost" 0%nat s in
   hs_result s' = ptr_of_static p /\
   (p <> None -> hs_herrno s' = h_errno sy /\ ret = 0) /\
   (p = None -> hs_herrno s' = hs_herrno s /\ ret = -1)).
Proof.
  split; [reflexivity|].
  apply (pqGethostbyname_legacy_herrno Toy.gethostbyname_r Toy.gethostbyname Toy.cfg_legacy
           "localhost" 0%nat (Toy.host0 7)).
  reflexivity.
Defined.

Lemma pqGethostbyname_reentrant_normalize_witness :
  reentrant_host Toy.cfg_threaded = true /\
  (let s := Toy.host0 0 in
   let '(_, _, _, _, p) :=
     Toy.gethostbyname_r "nohost" (hs_resultbuf s) (hs_buffer s) 0%nat (hs_herrno s) (hs_sys s) in
   let '(s', ret) :=
     pqGethostbyname Toy.gethostbyname_r Toy.gethostbyname Toy.cfg_threaded "nohost" 0%nat s in
   hs_result s' = p /\
   (hs_result s' <> NULL -> ret = 0) /\
   (hs_result s' = NULL -> ret <> 0)).
Proof.
  split; [reflexivity|].
  apply (pqGethostbyname_reentrant_normalize Toy.gethostbyname_r Toy.gethostbyname
           Toy.cfg_threaded "nohost" 0%nat (Toy.host0 0)).
  reflexivity.
Defined.

Lemma pqGetpwuid_reentrant_delegates_witness :
  reentrant_pw Toy.cfg_threaded = true /\
  (let s := Toy.pw0 Toy.buf64 in
   let '(sy, rb, buf, r, ret) :=
     Toy.getpwuid_r 5432 (pw_resultbuf s) (pw_buffer s) 64%nat (pw_result s) (pw_sys s) in
   pqGetpwuid Toy.getpwuid_r Toy.getpwuid Toy.cfg_threaded 5432 64%nat s =
   (mkPw sy rb buf r (pw_calls s ++ [Call_getpwuid_r 5432 64%nat]), ret)).
Proof.
  split; [reflexivity|].
  apply (pqGetpwuid_reentrant_delegates Toy.getpwuid_r Toy.getpwuid Toy.cfg_threaded
           5432 64%nat (Toy.pw0 Toy.buf64)).
  reflexivity.
Defined.

(** ** Legacy strategies: what the outputs depend on *)

(** Legacy pqGetpwuid reads neither the caller's buffers, nor buflen,
    nor the prior *result, nor the prior errno (which it clears). *)
Lemma pqGetpwuid_legacy_indep {Plat : Type} getpwuid_r getpwuid cfg
  (uid : uid_t) (buflen1 buflen2 : size_t) (s1 s2 : pw_state Plat) :
  reentrant_pw cfg = false ->
  plat (pw_sys s1) = plat (pw_sys s2) ->
  h_errno (pw_sys s1) = h_errno (pw_sys s2) ->
  let '(s1', ret1) := pqGetpwuid getpwuid_r getpwuid cfg uid buflen1 s1 in
  let '(s2', ret2) := pqGetpwuid getpwuid_r getpwuid cfg uid buflen2 s2 in
  ret1 = ret2 /\ pw_result s1' = pw_result s2' /\ pw_sys s1' = pw_sys s2'.
Proof.
  intros H Hp Hh.
  rewrite !(pqGetpwuid_legacy_unfold _ _ _ _ _ _ H).
  assert (E : set_errno 0 (pw_sys s1) = set_errno 0 (pw_sys s2))
    by (unfold set_errno; rewrite Hp, Hh; reflexivity).
  rewrite E. destruct (getpwuid uid _) as [sy1 p]. simpl. auto.
Qed.

(** Legacy pqGethostbyname reads neither the caller's buffers, nor
    buflen, nor the prior *result; the prior *herrno survives a failure. *)
Lemma pqGethostbyname_legacy_indep {Plat : Type} gethostbyname_r gethostbyname cfg
  (name : string) (buflen1 buflen2 : size_t) (s1 s2 : host_state Plat) :
  reentrant_host cfg = false ->
  hs_sys s1 = hs_sys s2 ->
  let '(s1', ret1) := pqGethostbyname gethostbyname_r gethostbyname cfg name buflen1 s1 in
  let '(s2', ret2) := pqGethostbyname gethostbyname_r gethostbyname cfg name buflen2 s2 in
  ret1 = ret2 /\ hs_result s1' = hs_result s2' /\ hs_sys s1' = hs_sys s2' /\
  (ret1 = 0 -> hs_herrno s1' = hs_herrno s2') /\
  (ret1 = -1 -> hs_herrno s1' = hs_herrno s1 /\ hs_herrno s2' = hs_herrno s2).
Proof.
  intros H Hs.
  rewrite !(pqGethostbyname_legacy_unfold _ _ _ _ _ _ H).
  rewrite Hs. destruct (gethostbyname name _) as [sy [n|]]; simpl;
    repeat split; congruence.
Qed.

(** ** C5 *)

(** C5 (as stated, refuted): in the legacy strategy an undersized buffer
    (buflen 0, no buffer at all) does not make pqGetpwuid fail: for an
    existing uid it returns 0 with a non-NULL *result. *)
Lemma pqGetpwuid_undersized_legacy_succeeds :
  let '(s', ret) :=
    pqGetpwuid Toy.getpwuid_r Toy.getpwuid Toy.cfg_legacy 5432 0%nat (Toy.pw0 []) in
  ret = 0 /\ pw_result s' = StaticArea 1 /\ ~ (ret <> 0 /\ pw_result s' = NULL).
Proof. vm_compute. split; [reflexivity|]. split; [reflexivity|]. intros [H _]. apply H. reflexivity. Qed.

(** C5 (amended): in the reentrant strategy pqGetpwuid issues exactly one
    getpwuid_r call, with the caller's buffer and buflen unchanged, and
    hands back its status and *result as they are, so a too-small buffer
    reported by getpwuid_r (ERANGE, *result NULL) is reported by the
    wrapper, with no retry; in the legacy strategy neither the buffer nor
    buflen is used, so the status and *result do not depend on them. *)
Theorem pqGetpwuid_buffer_size_handling {Plat : Type} getpwuid_r getpwuid cfg
  (uid : uid_t) (buflen : size_t) (s : pw_state Plat) :
  (reentrant_pw cfg = true ->
   let '(_, _, _, r, ret0) :=
     getpwuid_r uid (pw_resultbuf s) (pw_buffer s) buflen (pw_result s) (pw_sys s) in
   let '(s', ret) := pqGetpwuid getpwuid_r getpwuid cfg uid buflen s in
   pw_calls s' = pw_calls s ++ [Call_getpwuid_r uid buflen] /\
   ret = ret0 /\ pw_result s' = r /\
   (ret0 = ERANGE -> r = NULL -> ret = ERANGE /\ pw_result s' = NULL)) /\
  (reentrant_pw cfg = false ->
   forall buflen' buf' rb',
   let '(s', ret) := pqGetpwuid getpwuid_r getpwuid cfg uid buflen s in
   let '(s2', ret2) :=
     pqGetpwuid getpwuid_r getpwuid cfg uid buflen'
       (mkPw (pw_sys s) rb' buf' (pw_result s) (pw_calls s)) in
   pw_calls s' = pw_calls s ++ [Call_getpwuid uid] /\
   ret2 = ret /\ pw_result s2' = pw_result s').
Proof.
  split.
  - intros H. rewrite (pqGetpwuid_reentrant_unfold _ _ _ _ _ _ H).
    destruct (getpwuid_r _ _ _ _ _ _) as [[[[sy rb] buf] r] ret0]. simpl.
    repeat split; intros; subst; reflexivity.
  - intros H buflen' buf' rb'.
    pose proof (pqGetpwuid_legacy_indep getpwuid_r getpwuid cfg uid buflen buflen' s
                  (mkPw (pw_sys s) rb' buf' (pw_result s) (pw_calls s)) H eq_refl eq_refl) as I.
    revert I. rewrite !(pqGetpwuid_legacy_unfold _ _ _ _ _ _ H).
    destruct (getpwuid uid _) as [sy1 p]. simpl.
    intros (E1 & E2 & _). auto.
Qed.

(** ** C8 *)

(** C8: in both strategies pqGethostbyname returns 0 or -1 and nothing
    else, 0 exactly when *result is non-NULL.  The status never carries the
    resolver's failure reason, and on a legacy failure every output the
    caller sees ( *result NULL, *herrno, *resultbuf and buffer[] as they
    were, status -1) is fixed by the caller's own objects: nothing in them
    depends on why gethostbyname failed. *)
Theorem pqGethostbyname_status_codes {Plat : Type} gethostbyname_r gethostbyname cfg
  (name : string) (buflen : size_t) (s : host_state Plat) :
  let '(s', ret) := pqGethostbyname gethostbyname_r gethostbyname cfg name buflen s in
  (ret = 0 \/ ret = -1) /\
  (ret = 0 <-> hs_result s' <> NULL) /\
  (reentrant_host cfg = false -> ret <> 0 ->
   ret = -1 /\ hs_result s' = NULL /\ hs_herrno s' = hs_herrno s /\
   hs_resultbuf s' = hs_resultbuf s /\ hs_buffer s' = hs_buffer s).
Proof.
  destruct (reentrant_host cfg) eqn:H.
  - rewrite (pqGethostbyname_reentrant_unfold _ _ _ _ _ _ H).
    destruct (gethostbyname_r _ _ _ _ _ _) as [[[[sy rb] buf] he] p]. simpl.
    destruct p; simpl; repeat split; try congruence; try (left; reflexivity);
      try (right; reflexivity); intros; congruence.
  - rewrite (pqGethostbyname_legacy_unfold _ _ _ _ _ _ H).
    destruct (gethostbyname name _) as [sy [n|]]; simpl.
    + repeat split; try (left; reflexivity); try congruence.
    + repeat split; try (right; reflexivity); congruence.
Qed.

(** ** C9 *)

(** C9: in the legacy strategies neither wrapper touches *resultbuf or
    buffer[]: they are left as they were, *result is NULL or points into
    the library's static storage (never into the caller's buffers), and
    the status and *result (and, for pqGethostbyname, *herrno) are the
    same for any other resultbuf, buffer and buflen, zero included, so no
    buffer size can make the call fail.  [cfg_pw] and [cfg_host] are the
    builds of the two wrappers. *)
Theorem legacy_caller_buffers_untouched {Plat : Type}
  getpwuid_r getpwuid gethostbyname_r gethostbyname (cfg_pw cfg_host : config) :
  reentrant_pw cfg_pw = false ->
  reentrant_host cfg_host = false ->
  (forall (uid : uid_t) (buflen : size_t) (s : pw_state Plat),
   let '(s', ret) := pqGetpwuid getpwuid_r getpwuid cfg_pw uid buflen s in
   pw_resultbuf s' = pw_resultbuf s /\ pw_buffer s' = pw_buffer s /\
   (pw_result s' = NULL \/ exists n, pw_result s' = StaticArea n) /\
   forall buflen' rb' buf',
   let '(s2', ret2) :=
     pqGetpwuid getpwuid_r getpwuid cfg_pw uid buflen'
       (mkPw (pw_sys s) rb' buf' (pw_result s) (pw_calls s)) in
   ret2 = ret /\ pw_result s2' = pw_result s' /\ pw_sys s2' = pw_sys s') /\
  (forall (name : string) (buflen : size_t) (s : host_state Plat),
   let '(s', ret) := pqGethostbyname gethostbyname_r gethostbyname cfg_host name buflen s in
   hs_resultbuf s' = hs_resultbuf s /\ hs_buffer s' = hs_buffer s /\
   (hs_result s' = NULL \/ exists n, hs_result s' = StaticArea n) /\
   forall buflen' rb' buf',
   let '(s2', ret2) :=
     pqGethostbyname gethostbyname_r gethostbyname cfg_host name buflen'
       (mkHost (hs_sys s) rb' buf' (hs_result s) (hs_herrno s) (hs_calls s)) in
   ret2 = ret /\ hs_result s2' = hs_result s' /\ hs_herrno s2' = hs_herrno s' /\
   hs_sys s2' = hs_sys s').
Proof.
  intros Hpw Hhost. split.
  - intros uid buflen s.
    rewrite (pqGetpwuid_legacy_unfold _ _ _ _ _ _ Hpw).
    destruct (getpwuid uid _) as [sy1 p] eqn:G. simpl.
    split; [reflexivity|]. split; [reflexivity|].
    split; [destruct p as [n|]; [right; exists n|left]; reflexivity|].
    intros buflen' rb' buf'.
    rewrite (pqGetpwuid_legacy_unfold _ _ _ _ _ _ Hpw). simpl.
    rewrite G. simpl. auto.
  - intros name buflen s.
    rewrite (pqGethostbyname_legacy_unfold _ _ _ _ _ _ Hhost).
    destruct (gethostbyname name _) as [sy [n|]] eqn:G; simpl.
    + split; [reflexivity|]. split; [reflexivity|].
      split; [right; exists n; reflexivity|].
      intros buflen' rb' buf'.
      rewrite (pqGethostbyname_legacy_unfold _ _ _ _ _ _ Hhost). simpl.
      rewrite G. simpl. auto.
    + split; [reflexivity|]. split; [reflexivity|].
      split; [left; reflexivity|].
      intros buflen' rb' buf'.
      rewrite (pqGethostbyname_legacy_unfold _ _ _ _ _ _ Hhost). simpl.
      rewrite G. simpl. auto.
Qed.

Lemma legacy_caller_buffers_untouched_witness :
  reentrant_pw Toy.cfg_legacy = false /\
  reentrant_host Toy.cfg_legacy = false /\
  (let s := Toy.pw0 [] in
   let '(s', ret) :=
     pqGetpwuid Toy.getpwuid_r Toy.getpwuid Toy.cfg_legacy 5432 0%nat s in
   pw_resultbuf s' = pw_resultbuf s /\ pw_buffer s' = pw_buffer s /\
   (pw_result s' = NULL \/ exists n, pw_result s' = StaticArea n) /\
   forall buflen' rb' buf',
   let '(s2', ret2) :=
     pqGetpwuid Toy.getpwuid_r Toy.getpwuid Toy.cfg_legacy 5432 buflen'
       (mkPw (pw_sys s) rb' buf' (pw_result s) (pw_calls s)) in
   ret2 = ret /\ pw_result s2' = pw_result s' /\ pw_sys s2' = pw_sys s').
Proof.
  split; [reflexivity|]. split; [reflexivity|].
  destruct (legacy_caller_buffers_untouched Toy.getpwuid_r Toy.getpwuid
              Toy.gethostbyname_r Toy.gethostbyname Toy.cfg_legacy Toy.cfg_legacy
              eq_refl eq_refl) as [Hpw _].
  exact (Hpw 5432 0%nat (Toy.pw0 [])).
Defined.

(** ** C10 *)

Lemma toy_getpwuid_r_sets_result : getpwuid_r_sets_result Toy.getpwuid_r.
Proof.
  intros uid rb buf buflen r1 r2 sy. unfold Toy.getpwuid_r.
  destruct (Toy.pw_db_r uid buflen tt); reflexivity.
Qed.

(** C10: on every path of both strategies *result is assigned before the
    wrappers return (in the reentrant pqGetpwuid by getpwuid_r, which
    POSIX requires to set it), so its value after the call does not
    depend on what it held before; *herrno, by contrast, can keep its
    prior value (legacy pqGethostbyname on a failed lookup). *)
Theorem result_slot_always_assigned {Plat : Type}
  getpwuid_r getpwuid gethostbyname_r gethostbyname (cfg_pw cfg_host : config)
  (uid : uid_t) (name : string) (buflen : size_t)
  (s : pw_state Plat) (t : host_state Plat) (r0 : ptr) :
  getpwuid_r_sets_result getpwuid_r ->
  pw_result (fst (pqGetpwuid getpwuid_r getpwuid cfg_pw uid buflen s)) =
  pw_result (fst (pqGetpwuid getpwuid_r getpwuid cfg_pw uid buflen
                    (mkPw (pw_sys s) (pw_resultbuf s) (pw_buffer s) r0 (pw_calls s)))) /\
  hs_result (fst (pqGethostbyname gethostbyname_r gethostbyname cfg_host name buflen t)) =
  hs_result (fst (pqGethostbyname gethostbyname_r gethostbyname cfg_host name buflen
                    (mkHost (hs_sys t) (hs_resultbuf t) (hs_buffer t) r0
                            (hs_herrno t) (hs_calls t)))) /\
  (reentrant_host cfg_host = false ->
   snd (pqGethostbyname gethostbyname_r gethostbyname cfg_host name buflen t) = -1 ->
   hs_herrno (fst (pqGethostbyname gethostbyname_r gethostbyname cfg_host name buflen t))
   = hs_herrno t).
Proof.
  intros Hset. split; [|split].
  - destruct (reentrant_pw cfg_pw) eqn:H.
    + rewrite !(pqGetpwuid_reentrant_unfold _ _ _ _ _ _ H). simpl.
      specialize (Hset uid (pw_resultbuf s) (pw_buffer s) buflen (pw_result s) r0 (pw_sys s)).
      destruct (getpwuid_r uid _ _ _ (pw_result s) _) as [[[[sy1 rb1] buf1] r1] ret1].
      destruct (getpwuid_r uid _ _ _ r0 _) as [[[[sy2 rb2] buf2] r2] ret2].
      exact Hset.
    + rewrite !(pqGetpwuid_legacy_unfold _ _ _ _ _ _ H). simpl.
      destruct (getpwuid uid _) as [sy1 p]. reflexivity.
  - destruct (reentrant_host cfg_host) eqn:H.
    + rewrite !(pqGethostbyname_reentrant_unfold _ _ _ _ _ _ H). simpl.
      destruct (gethostbyname_r _ _ _ _ _ _) as [[[[sy rb] buf] he] p]. reflexivity.
    + rewrite !(pqGethostbyname_legacy_unfold _ _ _ _ _ _ H). simpl.
      destruct (gethostbyname name _) as [sy [n|]]; reflexivity.
  - intros H. rewrite (pqGethostbyname_legacy_unfold _ _ _ _ _ _ H).
    destruct (gethostbyname name _) as [sy [n|]]; simpl; [discriminate | reflexivity].
Qed.

Lemma result_slot_always_assigned_witness :
  getpwuid_r_sets_result Toy.getpwuid_r /\
  pw_result (fst (pqGetpwuid Toy.getpwuid_r Toy.getpwuid Toy.cfg_threaded 5432 64%nat
                    (Toy.pw0 Toy.buf64))) =
  pw_result (fst (pqGetpwuid Toy.getpwuid_r Toy.getpwuid Toy.cfg_threaded 5432 64%nat
                    (mkPw (pw_sys (Toy.pw0 Toy.buf64)) (pw_resultbuf (Toy.pw0 Toy.buf64))
                          (pw_buffer (Toy.pw0 Toy.buf64)) ResultBuf
                          (pw_calls (Toy.pw0 Toy.buf64))))) /\
  hs_result (fst (pqGethostbyname Toy.gethostbyname_r Toy.gethostbyname Toy.cfg_legacy
                    "nohost" 64%nat (Toy.host0 7))) =
  hs_result (fst (pqGethostbyname Toy.gethostbyname_r Toy.gethostbyname Toy.cfg_legacy
                    "nohost" 64%nat
                    (mkHost (hs_sys (Toy.host0 7)) (hs_resultbuf (Toy.host0 7))
                            (hs_buffer (Toy.host0 7)) ResultBuf
                            (hs_herrno (Toy.host0 7)) (hs_calls (Toy.host0 7))))) /\
  (reentrant_host Toy.cfg_legacy = false ->
   snd (pqGethostbyname Toy.gethostbyname_r Toy.gethostbyname Toy.cfg_legacy
          "nohost" 64%nat (Toy.host0 7)) = -1 ->
   hs_herrno (fst (pqGethostbyname Toy.gethostbyname_r Toy.gethostbyname Toy.cfg_legacy
                     "nohost" 64%nat (Toy.host0 7)))
   = hs_herrno (Toy.host0 7)).
Proof.
  split; [exact toy_getpwuid_r_sets_result|].
  exact (result_slot_always_assigned Toy.getpwuid_r Toy.getpwuid
           Toy.gethostbyname_r Toy.gethostbyname Toy.cfg_threaded Toy.cfg_legacy
           5432 "nohost" 64%nat (Toy.pw0 Toy.buf64) (Toy.host0 7) ResultBuf
           toy_getpwuid_r_sets_result).
Defined.

(** ** C7 *)

(** C7 (as stated, refuted): two legacy pqGethostbyname calls for
    "localhost" with identical caller objects and the same gethostbyname,
    one in a fresh process and one after an unrelated failed lookup of
    "nohost" (which left h_errno = HOST_NOT_FOUND), return the same status
    and *result but different *herrno contents: the successful
    gethostbyname does not set h_errno, and the wrapper copies the value
    left over from the earlier call. *)
Lemma pqGethostbyname_herrno_stale :
  let earlier :=
    fst (pqGethostbyname Toy.gethostbyname_r Toy.gethostbyname Toy.cfg_legacy
           "nohost" 0%nat (Toy.host0 0)) in
  let s_a := Toy.host0 0 in
  let s_b := mkHost (hs_sys earlier) (hs_resultbuf s_a) (hs_buffer s_a)
                    (hs_result s_a) (hs_herrno s_a) (hs_calls s_a) in
  let '(a, ret_a) :=
    pqGethostbyname Toy.gethostbyname_r Toy.gethostbyname Toy.cfg_legacy
      "localhost" 0%nat s_a in
  let '(b, ret_b) :=
    pqGethostbyname Toy.gethostbyname_r Toy.gethostbyname Toy.cfg_legacy
      "localhost" 0%nat s_b in
  plat (hs_sys s_a) = plat (hs_sys s_b) /\
  ret_a = ret_b /\ hs_result a = hs_result b /\ hs_herrno a <> hs_herrno b.
Proof.
  vm_compute. split; [reflexivity|]. split; [reflexivity|].
  split; [reflexivity|]. discriminate.
Qed.

(** C7 (amended): the wrappers keep no state of their own.  Given the same
    inputs and the same platform state, two calls give the same status and
    *result: in the legacy strategies whatever the fresh *resultbuf,
    buffer[] and prior *result hold (and for pqGetpwuid whatever errno held,
    since it is cleared), in the reentrant strategies whenever the
    reentrant primitive gets the same arguments.  The legacy
    pqGethostbyname's *herrno is not fixed by the inputs and the lookup
    alone: after a success it is the h_errno value of the platform state,
    after a failure it is the slot's prior contents. *)
Theorem wrappers_outputs_determined {Plat : Type}
  getpwuid_r getpwuid gethostbyname_r gethostbyname (cfg_pw cfg_host : config) :
  (forall (uid : uid_t) (buflen : size_t) (s1 s2 : pw_state Plat),
   plat (pw_sys s1) = plat (pw_sys s2) ->
   h_errno (pw_sys s1) = h_errno (pw_sys s2) ->
   (reentrant_pw cfg_pw = true ->
    pw_sys s1 = pw_sys s2 /\ pw_resultbuf s1 = pw_resultbuf s2 /\
    pw_buffer s1 = pw_buffer s2 /\ pw_result s1 = pw_result s2) ->
   let '(s1', ret1) := pqGetpwuid getpwuid_r getpwuid cfg_pw uid buflen s1 in
   let '(s2', ret2) := pqGetpwuid getpwuid_r getpwuid cfg_pw uid buflen s2 in
   ret1 = ret2 /\ pw_result s1' = pw_result s2') /\
  (forall (name : string) (buflen : size_t) (s1 s2 : host_state Plat),
   hs_sys s1 = hs_sys s2 ->
   (reentrant_host cfg_host = true ->
    hs_resultbuf s1 = hs_resultbuf s2 /\ hs_buffer s1 = hs_buffer s2 /\
    hs_herrno s1 = hs_herrno s2) ->
   let '(s1', ret1) := pqGethostbyname gethostbyname_r gethostbyname cfg_host name buflen s1 in
   let '(s2', ret2) := pqGethostbyname gethostbyname_r gethostbyname cfg_host name buflen s2 in
   ret1 = ret2 /\ hs_result s1' = hs_result s2' /\
   (reentrant_host cfg_host = false -> ret1 = 0 ->
    hs_herrno s1' = h_errno (hs_sys s1') /\ hs_herrno s1' = hs_herrno s2') /\
   (reentrant_host cfg_host = false -> ret1 = -1 ->
    hs_herrno s1' = hs_herrno s1 /\ hs_herrno s2' = hs_herrno s2)).
Proof.
  split.
  - intros uid buflen s1 s2 Hp Hh Hr.
    destruct (reentrant_pw cfg_pw) eqn:H.
    + destruct (Hr eq_refl) as (E1 & E2 & E3 & E4).
      rewrite !(pqGetpwuid_reentrant_unfold _ _ _ _ _ _ H).
      rewrite E1, E2, E3, E4.
      destruct (getpwuid_r _ _ _ _ _ _) as [[[[sy rb] buf] r] ret]. simpl. auto.
    + pose proof (pqGetpwuid_legacy_indep getpwuid_r getpwuid cfg_pw uid buflen buflen
                    s1 s2 H Hp Hh) as I.
      destruct (pqGetpwuid _ _ _ _ _ s1) as [s1' r1].
      destruct (pqGetpwuid _ _ _ _ _ s2) as [s2' r2].
      destruct I as (? & ? & _). auto.
  - intros name buflen s1 s2 Hs Hr.
    destruct (reentrant_host cfg_host) eqn:H.
    + destruct (Hr eq_refl) as (E1 & E2 & E3).
      rewrite !(pqGethostbyname_reentrant_unfold _ _ _ _ _ _ H).
      rewrite Hs, E1, E2, E3.
      destruct (gethostbyname_r _ _ _ _ _ _) as [[[[sy rb] buf] he] p]. simpl.
      repeat split; discriminate.
    + rewrite !(pqGethostbyname_legacy_unfold _ _ _ _ _ _ H).
      rewrite Hs.
      destruct (gethostbyname name _) as [sy [n|]]; simpl;
        repeat split; congruence.
Qed.

(** ** Further properties of the two wrappers *)


(** The wrappers' only own write to the ambient C state is the legacy
    pqGetpwuid's errno = 0: when the platform lookups leave errno, h_errno
    and the library state alone, pqGethostbyname leaves them alone in both
    builds, and pqGetpwuid does too except that its legacy path leaves
    errno at 0. *)
Theorem wrappers_own_ambient_writes {Plat : Type}
  getpwuid_r getpwuid gethostbyname_r gethostbyname (cfg : config)
  (uid : uid_t) (name : string) (buflen : size_t)
  (s : pw_state Plat) (t : host_state Plat) :
  (forall sy, fst (getpwuid uid sy) = sy) ->
  (forall rb buf n r sy, let '(sy', _, _, _, _) := getpwuid_r uid rb buf n r sy in sy' = sy) ->
  (forall sy, fst (gethostbyname name sy) = sy) ->
  (forall rb buf n he sy,
     let '(sy', _, _, _, _) := gethostbyname_r name rb buf n he sy in sy' = sy) ->
  pw_sys (fst (pqGetpwuid getpwuid_r getpwuid cfg uid buflen s)) =
  (if reentrant_pw cfg then pw_sys s else set_errno 0 (pw_sys s)) /\
  hs_sys (fst (pqGethostbyname gethostbyname_r gethostbyname cfg name buflen t)) =
  hs_sys t.
Proof.
  intros Hl Hr Hhl Hhr. split.
  - destruct (reentrant_pw cfg) eqn:H.
    + rewrite (pqGetpwuid_reentrant_unfold _ _ _ _ _ _ H).
      specialize (Hr (pw_resultbuf s) (pw_buffer s) buflen (pw_result s) (pw_sys s)).
      destruct (getpwuid_r _ _ _ _ _ _) as [[[[sy rb] buf] r] ret]. exact Hr.
    + rewrite (pqGetpwuid_legacy_unfold _ _ _ _ _ _ H).
      specialize (Hl (set_errno 0 (pw_sys s))).
      destruct (getpwuid uid _) as [sy1 p]. exact Hl.
  - destruct (reentrant_host cfg) eqn:H.
    + rewrite (pqGethostbyname_reentrant_unfold _ _ _ _ _ _ H).
      specialize (Hhr (hs_resultbuf t) (hs_buffer t) buflen (hs_herrno t) (hs_sys t)).
      destruct (gethostbyname_r _ _ _ _ _ _) as [[[[sy rb] buf] he] p]. exact Hhr.
    + rewrite (pqGethostbyname_legacy_unfold _ _ _ _ _ _ H).
      specialize (Hhl (hs_sys t)).
      destruct (gethostbyname name _) as [sy [n|]]; exact Hhl.
Qed.


(** Legacy pqGetpwuid repeated on the state the first call left (errno
    possibly set by it) gives the same status and *result, provided the
    lookup itself changes neither h_errno nor the library state: the
    errno = 0 reset makes a failed call's errno harmless to the next one. *)
Theorem pqGetpwuid_legacy_repeat {Plat : Type} getpwuid_r getpwuid cfg
  (uid : uid_t) (buflen buflen' : size_t) (s : pw_state Plat) :
  reentrant_pw cfg = false ->
  (forall sy, plat (fst (getpwuid uid sy)) = plat sy /\
              h_errno (fst (getpwuid uid sy)) = h_errno sy) ->
  let '(s1, ret1) := pqGetpwuid getpwuid_r getpwuid cfg uid buflen s in
  let '(s2, ret2) := pqGetpwuid getpwuid_r getpwuid cfg uid buflen' s1 in
  ret2 = ret1 /\ pw_result s2 = pw_result s1.
Proof.
  intros H Hg.
  destruct (pqGetpwuid getpwuid_r getpwuid cfg uid buflen s) as [s1 ret1] eqn:E1.
  assert (Hsys : plat (pw_sys s1) = plat (pw_sys s) /\
                 h_errno (pw_sys s1) = h_errno (pw_sys s)).
  { revert E1. rewrite (pqGetpwuid_legacy_unfold _ _ _ _ _ _ H).
    specialize (Hg (set_errno 0 (pw_sys s))).
    destruct (getpwuid uid _) as [sy1 p]. intros E1. injection E1 as <- _.
    exact Hg. }
  destruct Hsys as [Hp Hh].
  pose proof (pqGetpwuid_legacy_indep getpwuid_r getpwuid cfg uid buflen' buflen s1 s
                H Hp Hh) as I.
  rewrite E1 in I.
  destruct (pqGetpwuid getpwuid_r getpwuid cfg uid buflen' s1) as [s2 ret2].
  destruct I as (? & ? & _). auto.
Qed.

(** Legacy pqGethostbyname repeated on the state the first call left gives
    the same status and *result, provided gethostbyname keeps the library
    state and its answer depends only on the name and that state (not on
    h_errno, which a failed first call may have changed). *)
Theorem pqGethostbyname_legacy_repeat {Plat : Type} gethostbyname_r gethostbyname cfg
  (name : string) (buflen buflen' : size_t) (t : host_state Plat) :
  reentrant_host cfg = false ->
  (forall sy, plat (fst (gethostbyname name sy)) = plat sy) ->
  (forall sy1 sy2, plat sy1 = plat sy2 ->
     snd (gethostbyname name sy1) = snd (gethostbyname name sy2)) ->
  let '(t1, ret1) := pqGethostbyname gethostbyname_r gethostbyname cfg name buflen t in
  let '(t2, ret2) := pqGethostbyname gethostbyname_r gethostbyname cfg name buflen' t1 in
  ret2 = ret1 /\ hs_result t2 = hs_result t1.
Proof.
  intros H Hp Hd.
  rewrite (pqGethostbyname_legacy_unfold _ _ _ _ _ _ H).
  pose proof (Hp (hs_sys t)) as Hp1.
  destruct (gethostbyname name (hs_sys t)) as [sy p] eqn:G.
  simpl in Hp1.
  assert (Hsame : snd (gethostbyname name sy) = p).
  { rewrite (Hd sy (hs_sys t) Hp1), G. reflexivity. }
  destruct p as [n|]; simpl;
    rewrite (pqGethostbyname_legacy_unfold _ _ _ _ _ _ H); simpl;
    destruct (gethostbyname name sy) as [sy' p']; simpl in Hsame; subst p';
    simpl; auto.
Qed.

Lemma wrappers_own_ambient_writes_witness :
  (forall sy, fst (Toy.getpwuid 5432 sy) = sy) /\
  (forall rb buf n r sy,
     let '(sy', _, _, _, _) := Toy.getpwuid_r 5432 rb buf n r sy in sy' = sy) /\
  (forall sy, fst (Toy.gethostbyname "localhost" sy) = sy) /\
  (forall rb buf n he sy,
     let '(sy', _, _, _, _) := Toy.gethostbyname_r "localhost" rb buf n he sy in sy' = sy) /\
  pw_sys (fst (pqGetpwuid Toy.getpwuid_r Toy.getpwuid Toy.cfg_legacy 5432 0%nat
                 (Toy.pw0 []))) =
  (if reentrant_pw Toy.cfg_legacy then pw_sys (Toy.pw0 [])
   else set_errno 0 (pw_sys (Toy.pw0 []))) /\
  hs_sys (fst (pqGethostbyname Toy.gethostbyname_r Toy.gethostbyname Toy.cfg_legacy
                 "localhost" 0%nat (Toy.host0 7))) =
  hs_sys (Toy.host0 7).
Proof.
  assert (H1 : forall sy, fst (Toy.getpwuid 5432 sy) = sy) by (intros; reflexivity).
  assert (H2 : forall rb buf n r sy,
            let '(sy', _, _, _, _) := Toy.getpwuid_r 5432 rb buf n r sy in sy' = sy).
  { intros rb buf n r sy. unfold Toy.getpwuid_r.
    destruct (Toy.pw_db_r 5432 n tt); reflexivity. }
  assert (H3 : forall sy, fst (Toy.gethostbyname "localhost" sy) = sy)
    by (intros; reflexivity).
  assert (H4 : forall rb buf n he sy,
            let '(sy', _, _, _, _) := Toy.gethostbyname_r "localhost" rb buf n he sy in
            sy' = sy) by (intros; reflexivity).
  split; [exact H1|]. split; [exact H2|]. split; [exact H3|]. split; [exact H4|].
  exact (wrappers_own_ambient_writes Toy.getpwuid_r Toy.getpwuid Toy.gethostbyname_r
           Toy.gethostbyname Toy.cfg_legacy 5432 "localhost" 0%nat (Toy.pw0 [])
           (Toy.host0 7) H1 H2 H3 H4).
Defined.


Lemma pqGetpwuid_legacy_repeat_witness :
  reentrant_pw Toy.cfg_legacy = false /\
  (forall sy, plat (fst (Toy.getpwuid 99 sy)) = plat sy /\
              h_errno (fst (Toy.getpwuid 99 sy)) = h_errno sy) /\
  (let '(s1, ret1) :=
     pqGetpwuid Toy.getpwuid_r Toy.getpwuid Toy.cfg_legacy 99 0%nat (Toy.pw0 []) in
   let '(s2, ret2) :=
     pqGetpwuid Toy.getpwuid_r Toy.getpwuid Toy.cfg_legacy 99 64%nat s1 in
   ret2 = ret1 /\ pw_result s2 = pw_result s1).
Proof.
  assert (Hg : forall sy, plat (fst (Toy.getpwuid 99 sy)) = plat sy /\
                          h_errno (fst (Toy.getpwuid 99 sy)) = h_errno sy)
    by (intros; split; reflexivity).
  split; [reflexivity|]. split; [exact Hg|].
  exact (pqGetpwuid_legacy_repeat Toy.getpwuid_r Toy.getpwuid Toy.cfg_legacy
           99 0%nat 64%nat (Toy.pw0 []) eq_refl Hg).
Defined.

Lemma pqGethostbyname_legacy_repeat_witness :
  reentrant_host Toy.cfg_legacy = false /\
  (forall sy, plat (fst (Toy.gethostbyname "nohost" sy)) = plat sy) /\
  (forall sy1 sy2, plat sy1 = plat sy2 ->
     snd (Toy.gethostbyname "nohost" sy1) = snd (Toy.gethostbyname "nohost" sy2)) /\
  (let '(t1, ret1) :=
     pqGethostbyname Toy.gethostbyname_r Toy.gethostbyname Toy.cfg_legacy
       "nohost" 0%nat (Toy.host0 7) in
   let '(t2, ret2) :=
     pqGethostbyname Toy.gethostbyname_r Toy.gethostbyname Toy.cfg_legacy
       "nohost" 0%nat t1 in
   ret2 = ret1 /\ hs_result t2 = hs_result t1).
Proof.
  assert (Hp : forall sy, plat (fst (Toy.gethostbyname "nohost" sy)) = plat sy)
    by (intros; reflexivity).
  assert (Hd : forall sy1 sy2, plat sy1 = plat sy2 ->
            snd (Toy.gethostbyname "nohost" sy1) = snd (Toy.gethostbyname "nohost" sy2))
    by (intros; reflexivity).
  split; [reflexivity|]. split; [exact Hp|]. split; [exact Hd|].
  exact (pqGethostbyname_legacy_repeat Toy.gethostbyname_r Toy.gethostbyname
           Toy.cfg_legacy "nohost" 0%nat 0%nat (Toy.host0 7) eq_refl Hp Hd).
Defined.
